(** * The blog post title override: [src/theme/BlogPostItem/Header/Title/index.js]

    A shallow embedding of the swizzled Docusaurus component
    [BlogPostItemHeaderTitle] together with the small parts of its runtime
    it relies on: JavaScript strings and [String.prototype.replace], the
    [clsx] class-name joiner, React elements, the [useEffect] hook with its
    dependency comparison, and the [document.title] cell. *)

From Stdlib Require Import String Ascii List Bool Arith Lia.
Import ListNotations.
Open Scope string_scope.
Set Warnings "-register-all".

(** ** JavaScript values and strings *)

Module JS.

(** The values that reach the component: the metadata fields and the
    [className] prop are strings, or [undefined] when absent.  A string is
    the sequence of its UTF-8 bytes; the backtick is the single byte 96 and
    is never part of a longer sequence. *)
Inductive value : Type :=
| undefined
| str (s : string).

Inductive error : Type :=
| TypeError.

(** Completion records: a computation returns or throws. *)
Inductive completion (A : Type) : Type :=
| normal (a : A)
| throw (e : error).
Arguments normal {A} a.
Arguments throw {A} e.

(** [===] *)
Definition strict_eq (a b : value) : bool :=
  match a, b with
  | undefined, undefined => true
  | str s, str t => String.eqb s t
  | _, _ => false
  end.

(** ToBoolean *)
Definition truthy (v : value) : bool :=
  match v with
  | undefined => false
  | str s => negb (String.eqb s "")
  end.

(** [s.replace(searchValue, replaceValue)] for a string [searchValue]: the
    first occurrence is found as by [indexOf]; when there is none the
    string is returned, otherwise the text before it, the replacement and
    the text after it are concatenated.  The replacement is taken
    literally, which is what the language does for a replacement without
    a dollar sign. *)
Definition replace (s searchValue replaceValue : string) : string :=
  match index 0 searchValue s with
  | None => s
  | Some pos =>
      let tailPos := pos + String.length searchValue in
      substring 0 pos s
        ++ replaceValue
        ++ substring tailPos (String.length s - tailPos) s
  end.

(** A method call on a value: [undefined] has no properties. *)
Definition call_replace (this : value) (searchValue replaceValue : string)
  : completion string :=
  match this with
  | undefined => throw TypeError
  | str s => normal (replace s searchValue replaceValue)
  end.

End JS.

(** ** clsx 1.2: joins its truthy arguments with single spaces *)

Definition toVal (mix : JS.value) : string :=
  match mix with
  | JS.str s => s
  | JS.undefined => ""
  end.

Fixpoint clsx_from (args : list JS.value) (acc : string) : string :=
  match args with
  | [] => acc
  | tmp :: rest =>
      if JS.truthy tmp then
        let x := toVal tmp in
        if JS.truthy (JS.str x) then
          clsx_from rest ((if JS.truthy (JS.str acc) then acc ++ " " else acc) ++ x)
        else clsx_from rest acc
      else clsx_from rest acc
  end.

Definition clsx (args : list JS.value) : string := clsx_from args "".

(** ** React elements, hooks and the document *)

Module React.

Inductive elementType : Type :=
| host (tag : string)      (* "h1", "h2", "code" *)
| Fragment                 (* <>...</> *)
| Link.                    (* @docusaurus/Link *)

Record props : Type := mkProps {
  className : option string;
  itemProp : option string;
  to : option JS.value
}.

Definition noProps : props := mkProps None None None.

(** A React node: a primitive child (a string is text, [undefined] renders
    nothing) or an element with its props and children. *)
Inductive node : Type :=
| prim (v : JS.value)
| element (type : elementType) (p : props) (children : list node).

(** The text a node contributes to the DOM's [textContent]. *)
Fixpoint textContent (n : node) : string :=
  match n with
  | prim v => toVal v
  | element _ _ children =>
      (fix all (l : list node) : string :=
         match l with
         | [] => ""
         | c :: l' => textContent c ++ all l'
         end) children
  end.

(** What a dependency array holds and [Object.is] compares: primitives by
    value, element objects by identity. *)
Inductive dep : Type :=
| byValue (v : JS.value)
| byRef (ref : nat).

Definition Object_is (a b : dep) : bool :=
  match a, b with
  | byValue v, byValue w => JS.strict_eq v w
  | byRef r, byRef q => Nat.eqb r q
  | _, _ => false
  end.

Fixpoint areHookInputsEqual (nextDeps prevDeps : list dep) : bool :=
  match nextDeps, prevDeps with
  | a :: n', b :: p' => Object_is a b && areHookInputsEqual n' p'
  | _, _ => true
  end.

(** The browser document: the component touches only its title. *)
Record document : Type := mkDocument {
  title : string
}.

Definition effect : Type := document -> JS.completion document.

(** The state of one mounted component instance: the allocator of object
    identities, the dependencies its effect hook memoized at the previous
    render ([None] before the first), the effect flagged to run at commit,
    and how many times an effect callback has run. *)
Record fiber : Type := mkFiber {
  nextRef : nat;
  memoizedDeps : option (list dep);
  pendingEffect : option effect;
  effectRuns : nat
}.

Definition unmounted : fiber := mkFiber 0 None None 0.

(** The render phase is a state monad over the fiber. *)
Definition Render (A : Type) : Type := fiber -> A * fiber.

Definition ret {A} (a : A) : Render A := fun f => (a, f).

Definition bind {A B} (m : Render A) (k : A -> Render B) : Render B :=
  fun f => let (a, f') := m f in k a f'.

(** A JSX expression creates a fresh element object on every evaluation. *)
Definition jsx (type : elementType) (p : props) (children : list node)
  : Render (dep * node) :=
  fun f =>
    ((byRef (nextRef f), element type p children),
     mkFiber (S (nextRef f)) (memoizedDeps f) (pendingEffect f) (effectRuns f)).

(** [useEffect(create, deps)]: on mount the effect is always flagged; on an
    update only when some dependency changed.  The new dependencies are
    memoized either way. *)
Definition useEffect (create : effect) (deps : list dep) : Render unit :=
  fun f =>
    let flagged :=
      match memoizedDeps f with
      | None => true
      | Some prevDeps => negb (areHookInputsEqual deps prevDeps)
      end in
    (tt, mkFiber (nextRef f) (Some deps)
                 (if flagged then Some create else None)
                 (effectRuns f)).

(** After the commit the flagged effect runs against the document.  An
    effect that throws, with no error boundary around the component, takes
    the whole tree down. *)
Definition commitPassiveEffects (f : fiber) (d : document)
  : JS.completion (fiber * document) :=
  match pendingEffect f with
  | None => JS.normal (f, d)
  | Some create =>
      match create d with
      | JS.normal d' =>
          JS.normal (mkFiber (nextRef f) (memoizedDeps f) None (S (effectRuns f)), d')
      | JS.throw e => JS.throw e
      end
  end.

End React.

Notation "x <- m ;; k" := (React.bind m (fun x => k))
  (at level 61, m at next level, right associativity).
Notation "m ;;; k" := (React.bind m (fun _ => k))
  (at level 61, right associativity).

(** ** The component *)

(** What [useBlogPost()] hands to the component. *)
Record Metadata : Type := mkMetadata {
  permalink : JS.value;
  title : JS.value
}.

Record BlogPost : Type := mkBlogPost {
  metadata : Metadata;
  isBlogPostPage : bool
}.

(** The component's own props. *)
Record Props : Type := mkPropsOf {
  className : JS.value
}.

(** The one title the workaround is keyed on. *)
Definition satisfiesTitle : string := "The `satisfies` Operator".

Section Title.

(** The class name that [./styles.module.css] exports for [.title]. *)
Variable styles_title : string.

(** The callback handed to [useEffect]. *)
Definition syncDocumentTitle (rawTitle : JS.value) : React.effect :=
  fun _ =>
    match JS.call_replace rawTitle "`" "" with
    | JS.normal s => JS.normal (React.mkDocument s)
    | JS.throw e => JS.throw e
    end.

(** The component.  [useBlogPost()] is the [blogPost] argument.  The JSX
    text of the fragment is trimmed at its line breaks by the JSX rules, which
    leaves the children [The ], the [code] element and [ operator]; inner
    elements are created before the element that holds them. *)
Definition BlogPostItemHeaderTitle (props : Props) (blogPost : BlogPost)
  : React.Render React.node :=
  let permalink := permalink (metadata blogPost) in
  let rawTitle := title (metadata blogPost) in
  let TitleHeading :=
    if isBlogPostPage blogPost then React.host "h1" else React.host "h2" in
  title <-
    (if JS.strict_eq rawTitle (JS.str satisfiesTitle) then
       code <- React.jsx (React.host "code") React.noProps
                 [React.prim (JS.str "satisfies")] ;;
       React.jsx React.Fragment React.noProps
         [React.prim (JS.str "The "); snd code; React.prim (JS.str " operator")]
     else
       React.ret (React.byValue rawTitle, React.prim rawTitle)) ;;
  React.useEffect (syncDocumentTitle rawTitle) [fst title] ;;;
  content <-
    (if isBlogPostPage blogPost then
       React.ret title
     else
       React.jsx React.Link
         (React.mkProps None (Some "url") (Some permalink))
         [snd title]) ;;
  heading <-
    React.jsx TitleHeading
      (React.mkProps (Some (clsx [JS.str styles_title; className props]))
                     (Some "headline") None)
      [snd content] ;;
  React.ret (snd heading).

(** One render of the component followed by its commit. *)
Definition renderPass (props : Props) (blogPost : BlogPost)
  (st : React.fiber * React.document)
  : JS.completion (React.node * (React.fiber * React.document)) :=
  let (out, f) := BlogPostItemHeaderTitle props blogPost (fst st) in
  match React.commitPassiveEffects f (snd st) with
  | JS.normal st' => JS.normal (out, st')
  | JS.throw e => JS.throw e
  end.

(** A sequence of renders of the same mounted instance, one per input. *)
Fixpoint renderAll (inputs : list (Props * BlogPost))
  (st : React.fiber * React.document)
  : JS.completion (list React.node * (React.fiber * React.document)) :=
  match inputs with
  | [] => JS.normal ([], st)
  | (props, blogPost) :: rest =>
      match renderPass props blogPost st with
      | JS.throw e => JS.throw e
      | JS.normal (out, st') =>
          match renderAll rest st' with
          | JS.throw e => JS.throw e
          | JS.normal (outs, st'') => JS.normal (out :: outs, st'')
          end
      end
  end.

(** What the component returns, whatever the state of its hooks. *)
Definition rendered (props : Props) (blogPost : BlogPost) (f : React.fiber)
  : React.node :=
  fst (BlogPostItemHeaderTitle props blogPost f).

End Title.

Definition post (t p : JS.value) (page : bool) : BlogPost :=
  mkBlogPost (mkMetadata p t) page.


(** A first render of a fresh instance. *)
Definition mount (styles_title : string) (props : Props) (blogPost : BlogPost)
  (d : React.document) :=
  renderPass styles_title props blogPost (React.unmounted, d).

(** ** Observations on outputs and states *)

(** The document title a render pass leaves behind, when it completes. *)
Definition documentTitle {A : Type}
  (c : JS.completion (A * (React.fiber * React.document))) : option string :=
  match c with
  | JS.normal (_, (_, d)) => Some (React.title d)
  | JS.throw _ => None
  end.

(** The state a render pass leaves behind, without the rendered output. *)
Definition stateAfter {A : Type}
  (c : JS.completion (A * (React.fiber * React.document)))
  : JS.completion (React.fiber * React.document) :=
  match c with
  | JS.normal (_, st) => JS.normal st
  | JS.throw e => JS.throw e
  end.

Definition childrenOf (n : React.node) : list React.node :=
  match n with
  | React.prim _ => []
  | React.element _ _ children => children
  end.

(** The markup substituted for the special-cased title. *)
Definition satisfiesMarkup : React.node :=
  React.element React.Fragment React.noProps
    [React.prim (JS.str "The ");
     React.element (React.host "code") React.noProps
       [React.prim (JS.str "satisfies")];
     React.prim (JS.str " operator")].

Definition headingProps (styles_title : string) (props : Props) : React.props :=
  React.mkProps (Some (clsx [JS.str styles_title; className props]))
                (Some "headline") None.

Definition linkProps (permalink : JS.value) : React.props :=
  React.mkProps None (Some "url") (Some permalink).

Definition headingTag (page : bool) : React.elementType :=
  if page then React.host "h1" else React.host "h2".

(** The heading wraps its content in a link except on the post's own page. *)
Definition headingContent (page : bool) (permalink : JS.value)
  (content : React.node) : React.node :=
  if page then content
  else React.element React.Link (linkProps permalink) [content].

(** The title as the heading shows it: the substituted markup for the
    special-cased title, the raw value otherwise. *)
Definition shownTitle (t : JS.value) : React.node :=
  if JS.strict_eq t (JS.str satisfiesTitle) then satisfiesMarkup
  else React.prim t.

(** Number of occurrences of a character in a string. *)
Fixpoint occurrences (c : ascii) (s : string) : nat :=
  match s with
  | "" => 0
  | String a s' => (if Ascii.eqb a c then 1 else 0) + occurrences c s'
  end.

(** The string without the first occurrence of a character. *)
Fixpoint removeFirst (c : ascii) (s : string) : string :=
  match s with
  | "" => ""
  | String a s' => if Ascii.eqb a c then s' else String a (removeFirst c s')
  end.

Definition backtick : ascii := "`"%char.

(** The DOM's class list: the tokens of the [class] attribute, split on
    ASCII whitespace. *)
Definition isAsciiWhitespace (c : ascii) : bool :=
  existsb (Ascii.eqb c) [" "; "009"; "010"; "012"; "013"]%char.

Fixpoint noWhitespace (s : string) : bool :=
  match s with
  | "" => true
  | String a s' => negb (isAsciiWhitespace a) && noWhitespace s'
  end.

Fixpoint splitOnWhitespace (s token : string) : list string :=
  match s with
  | "" => if String.eqb token "" then [] else [token]
  | String a s' =>
      if isAsciiWhitespace a then
        if String.eqb token "" then splitOnWhitespace s' ""
        else token :: splitOnWhitespace s' ""
      else splitOnWhitespace s' (token ++ String a "")
  end.

Definition classList (className : string) : list string :=
  splitOnWhitespace className "".

(** ** Sequences of renders with string titles *)

(** The inputs of one render when the title is a string: the component's
    props, the title, the permalink and the page flag. *)
Definition renderInput : Type := Props * string * JS.value * bool.

Definition inputOf (i : renderInput) : Props * BlogPost :=
  let '(props, s, p, page) := i in (props, post (JS.str s) p page).

Definition titleOf (i : renderInput) : string :=
  let '(_, s, _, _) := i in s.

(** What a fresh instance returns for an input. *)
Definition freshOutput (styles_title : string) (i : renderInput) : React.node :=
  rendered styles_title (fst (inputOf i)) (snd (inputOf i)) React.unmounted.

(** The dependency a render with the string title [s] hands to the effect
    hook: the title itself, or for the special-cased title the fragment it
    creates, the second element of that render. *)
Definition titleDep (f : React.fiber) (s : string) : React.dep :=
  if String.eqb s satisfiesTitle then React.byRef (S (React.nextRef f))
  else React.byValue (JS.str s).

(** Whether a render with title [t], coming after a render with title
    [prev], runs the effect again. *)
Definition rerun (prev t : string) : bool :=
  negb (String.eqb t prev) || String.eqb t satisfiesTitle.

Fixpoint effectsAfter (prev : string) (titles : list string) : nat :=
  match titles with
  | [] => 0
  | t :: rest => (if rerun prev t then 1 else 0) + effectsAfter t rest
  end.

(** The runs of the effect over a sequence of renders: one at the mount and
    one for every later render that [rerun] holds for. *)
Definition expectedEffectRuns (titles : list string) : nat :=
  match titles with
  | [] => 0
  | t :: rest => 1 + effectsAfter t rest
  end.

(** The state of a mounted instance whose last render had the string title
    [t]: the document shows the title without its first backtick, and the
    hook remembers the title itself, or for the special-cased title an
    element that exists already. *)
Definition synced (f : React.fiber) (d : React.document) (t : string) : Prop :=
  React.title d = removeFirst backtick t /\
  match React.memoizedDeps f with
  | Some [React.byValue (JS.str s)] => s = t /\ t <> satisfiesTitle
  | Some [React.byRef r] => t = satisfiesTitle /\ r < React.nextRef f
  | _ => False
  end.

(** The [className] of an element. *)
Definition classNameOf (n : React.node) : option string :=
  match n with
  | React.prim _ => None
  | React.element _ p _ => React.className p
  end.

(** ** JSX text *)

Module JSX.

Definition LF : ascii := "010"%char.
Definition CR : ascii := "013"%char.
Definition TAB : ascii := "009"%char.

(** A line break of the source file. *)
Definition nl : string := String LF "".

(** [value.split(/\r\n|\n|\r/)]; [line] is the line read so far. *)
Fixpoint splitLines (value line : string) : list string :=
  match value with
  | "" => [line]
  | String a rest =>
      if Ascii.eqb a LF then line :: splitLines rest ""
      else if Ascii.eqb a CR then
        match rest with
        | String b rest' =>
            if Ascii.eqb b LF then line :: splitLines rest' ""
            else line :: splitLines rest ""
        | "" => line :: splitLines rest ""
        end
      else splitLines rest (line ++ String a "")
  end.

(** [line.match(/[^ \t]/)] *)
Fixpoint hasNonBlank (line : string) : bool :=
  match line with
  | "" => false
  | String a rest =>
      negb (Ascii.eqb a " " || Ascii.eqb a TAB) || hasNonBlank rest
  end.

(** [line.replace(/\t/g, " ")] *)
Fixpoint replaceTabs (line : string) : string :=
  match line with
  | "" => ""
  | String a rest =>
      String (if Ascii.eqb a TAB then " "%char else a) (replaceTabs rest)
  end.

(** [line.replace(/^[ ]+/, "")] *)
Fixpoint trimStart (line : string) : string :=
  match line with
  | "" => ""
  | String a rest => if Ascii.eqb a " " then trimStart rest else line
  end.

(** [line.replace(/[ ]+$/, "")] *)
Fixpoint trimEnd (line : string) : string :=
  match line with
  | "" => ""
  | String a rest =>
      let rest' := trimEnd rest in
      if Ascii.eqb a " " && String.eqb rest' "" then "" else String a rest'
  end.

(** The index of the last line that holds more than blanks, 0 when there is
    none. *)
Fixpoint lastNonEmptyLine (lines : list string) (i last : nat) : nat :=
  match lines with
  | [] => last
  | line :: rest =>
      lastNonEmptyLine rest (S i) (if hasNonBlank line then i else last)
  end.

(** The loop over the lines: tabs become spaces, every line but the first
    loses its leading spaces and every line but the last its trailing ones,
    and the lines that are left are joined by single spaces. *)
Fixpoint cleanLines (lines : list string) (i lastNonEmpty : nat) (str : string)
  : string :=
  match lines with
  | [] => str
  | line :: rest =>
      let isFirstLine := Nat.eqb i 0 in
      let isLastLine := match rest with [] => true | _ => false end in
      let isLastNonEmptyLine := Nat.eqb i lastNonEmpty in
      let tabsReplaced := replaceTabs line in
      let startTrimmed :=
        if isFirstLine then tabsReplaced else trimStart tabsReplaced in
      let trimmedLine :=
        if isLastLine then startTrimmed else trimEnd startTrimmed in
      if String.eqb trimmedLine "" then
        cleanLines rest (S i) lastNonEmpty str
      else
        cleanLines rest (S i) lastNonEmpty
          (str ++ (if isLastNonEmptyLine then trimmedLine
                   else trimmedLine ++ " "))
  end.

(** What the JSX transform makes of the text between two tags: the cleaned
    string, or no child at all when nothing is left. *)
Definition cleanJSXElementLiteralChild (value : string) : option string :=
  let lines := splitLines value "" in
  let str := cleanLines lines 0 (lastNonEmptyLine lines 0 0) "" in
  if String.eqb str "" then None else Some str.

End JSX.

(** ** The hero section: [src/theme/HeroSection/index.tsx] *)

Module Hero.

(** An element of the section, with its attributes as written. *)
Inductive node : Type :=
| text (s : string)
| element (tag : string) (attrs : list (string * JS.value)) (children : list node).

(** The children of a JSX element as the source has them: text between
    tags, an expression in braces, or an element. *)
Inductive child : Type :=
| JSXText (value : string)
| JSXExpression (v : JS.value)
| JSXElement (n : node).

Definition childNodes (c : child) : list node :=
  match c with
  | JSXText value =>
      match JSX.cleanJSXElementLiteralChild value with
      | Some s => [text s]
      | None => []
      end
  | JSXExpression v =>
      match v with
      | JS.str s => [text s]
      | JS.undefined => []
      end
  | JSXElement n => [n]
  end.

Definition jsx (tag : string) (attrs : list (string * JS.value))
  (children : list child) : node :=
  element tag attrs (flat_map childNodes children).

(** The class names of [./styles.module.css]; a class the sheet does not
    define reads as [undefined]. *)
Record Styles : Type := mkStyles {
  hero : JS.value;
  left : JS.value;
  heading : JS.value;
  together : JS.value;
  author : JS.value;
  cover : JS.value
}.

(** A line break of the source followed by its indentation. *)
Definition indent (n : nat) : string :=
  JSX.nl ++ string_of_list_ascii (repeat " "%char n).

(** The component; [siteConfig] is read from the context and not used. *)
Definition HeroSection {SiteConfig : Type} (styles : Styles)
  (siteConfig : SiteConfig) : node :=
  jsx "section" [("className", hero styles)]
    [JSXText (indent 6);
     JSXElement (jsx "div" [("className", left styles)]
       [JSXText (indent 8);
        JSXElement (jsx "h1" [("className", heading styles)]
          [JSXText (indent 10 ++ "Companion ");
           JSXElement (jsx "span" [("className", together styles)]
             [JSXText "projects"]);
           JSXText (" and" ++ indent 10 ++ "articles for");
           JSXExpression (JS.str " ");
           JSXText (indent 10);
           JSXElement (jsx "span" [("className", together styles)]
             [JSXText "Learning TypeScript"]);
           JSXText (indent 8)]);
        JSXText (indent 8);
        JSXElement (jsx "div" [("className", author styles)]
          [JSXText "By Josh Goldberg"]);
        JSXText (indent 6)]);
     JSXText (indent 6);
     JSXElement (jsx "div" [("className", cover styles)]
       [JSXText (indent 8);
        JSXElement (jsx "img"
          [("alt", JS.str "Book cover: Learning TypeScript: Enhance Your Web Development Skills Using Type-Safe JavaScript");
           ("src", JS.str "/img/cover.png")]
          []);
        JSXText (indent 6)]);
     JSXText (indent 4)].

(** The DOM's [textContent]. *)
Fixpoint textContent (n : node) : string :=
  match n with
  | text s => s
  | element _ _ children =>
      (fix all (l : list node) : string :=
         match l with
         | [] => ""
         | c :: l' => textContent c ++ all l'
         end) children
  end.

(** The elements with a given tag, in document order. *)
Fixpoint getElementsByTagName (tag : string) (n : node) : list node :=
  match n with
  | text _ => []
  | element t _ children =>
      ((if String.eqb t tag then [n] else [])
       ++ (fix all (l : list node) : list node :=
             match l with
             | [] => []
             | c :: l' => getElementsByTagName tag c ++ all l'
             end) children)%list
  end.

End Hero.

(** The children of the fragment of [BlogPostItemHeaderTitle] as the source
    file has them, between the tags. *)
Definition fragmentSource : list (string + React.node) :=
  [inl (JSX.nl ++ "        The ");
   inr (React.element (React.host "code") React.noProps
          [React.prim (JS.str "satisfies")]);
   inl (" operator" ++ JSX.nl ++ "      ")].

Definition reactChildNodes (c : string + React.node) : list React.node :=
  match c with
  | inl value =>
      match JSX.cleanJSXElementLiteralChild value with
      | Some s => [React.prim (JS.str s)]
      | None => []
      end
  | inr n => [n]
  end.

(** ** Strings *)

Lemma append_assoc (a b c : string) : (a ++ b) ++ c = a ++ b ++ c.
Proof.
  induction a as [|x a IH]; simpl; [reflexivity | now rewrite IH].
Qed.

Lemma append_empty_r (a : string) : a ++ "" = a.
Proof.
  induction a as [|x a IH]; simpl; [reflexivity | now rewrite IH].
Qed.

Lemma length_append (a b : string) :
  String.length (a ++ b) = String.length a + String.length b.
Proof.
  induction a as [|x a IH]; simpl; [reflexivity | now rewrite IH].
Qed.

Lemma substring_all (s : string) : substring 0 (String.length s) s = s.
Proof.
  induction s as [|x s IH]; simpl; [reflexivity | now rewrite IH].
Qed.

Lemma occurrences_append (c : ascii) (a b : string) :
  occurrences c (a ++ b) = occurrences c a + occurrences c b.
Proof.
  induction a as [|x a IH]; simpl; [reflexivity | rewrite IH; lia].
Qed.

Lemma prefix_backtick (a : ascii) (s : string) :
  prefix "`" (String a s) = Ascii.eqb a backtick.
Proof.
  cbn [prefix]. destruct (ascii_dec "`" a) as [e | n].
  - subst a. now destruct s.
  - symmetry. apply Ascii.eqb_neq. intros e. apply n. now rewrite e.
Qed.

(** [replace] with the one-character pattern of the source removes the first
    backtick. *)
Lemma replace_backtick (s : string) :
  JS.replace s "`" "" = removeFirst backtick s.
Proof.
  unfold JS.replace.
  induction s as [|a s IH].
  - reflexivity.
  - cbn [index]. rewrite prefix_backtick.
    cbn [removeFirst].
    destruct (Ascii.eqb a backtick) eqn:E.
    + cbn [substring String.length Nat.add Nat.sub append].
      now rewrite Nat.sub_0_r, substring_all.
    + destruct (index 0 "`" s) as [pos|].
      * cbn [substring String.length Nat.add Nat.sub append] in *.
        now rewrite <- IH.
      * now rewrite <- IH.
Qed.

Lemma removeFirst_absent (c : ascii) (s : string) :
  occurrences c s = 0 -> removeFirst c s = s.
Proof.
  induction s as [|a s IH]; simpl; [reflexivity|].
  destruct (Ascii.eqb a c); [discriminate|].
  intros H. now rewrite IH.
Qed.

Lemma removeFirst_split (c : ascii) (s : string) :
  1 <= occurrences c s ->
  exists pre post,
    s = pre ++ String c post /\ occurrences c pre = 0 /\
    removeFirst c s = pre ++ post.
Proof.
  induction s as [|a s IH]; simpl; [lia|].
  destruct (Ascii.eqb a c) eqn:E.
  - apply Ascii.eqb_eq in E. subst a. intros _.
    exists "", s. now repeat split.
  - intros H. destruct (IH H) as (pre & post & Hs & Hpre & Hr).
    exists (String a pre), post. simpl. rewrite E, Hpre, Hr.
    repeat split. now rewrite Hs at 1.
Qed.

Lemma occurrences_removeFirst (c : ascii) (s : string) :
  occurrences c (removeFirst c s) = occurrences c s - 1.
Proof.
  induction s as [|a s IH]; simpl; [reflexivity|].
  destruct (Ascii.eqb a c) eqn:E; simpl.
  - lia.
  - now rewrite E.
Qed.

Lemma length_removeFirst (c : ascii) (s : string) :
  1 <= occurrences c s ->
  S (String.length (removeFirst c s)) = String.length s.
Proof.
  induction s as [|a s IH]; simpl; [lia|].
  destruct (Ascii.eqb a c) eqn:E; simpl; [reflexivity|].
  intros H. now rewrite IH.
Qed.

Lemma removeFirst_changes (c : ascii) (s : string) :
  1 <= occurrences c s -> removeFirst c s <> s.
Proof.
  intros H E. apply length_removeFirst in H. rewrite E in H. lia.
Qed.

(** ** What the component returns *)

Section Rendering.

Variable styles_title : string.
Variable props : Props.

Lemma rendered_plain (t p : JS.value) (page : bool) (f : React.fiber) :
  JS.strict_eq t (JS.str satisfiesTitle) = false ->
  rendered styles_title props (post t p page) f =
  React.element (headingTag page) (headingProps styles_title props)
    [headingContent page p (React.prim t)].
Proof.
  intros H. unfold rendered, BlogPostItemHeaderTitle, post. cbn.
  rewrite H. now destruct page.
Qed.

Lemma rendered_satisfies (p : JS.value) (page : bool) (f : React.fiber) :
  rendered styles_title props (post (JS.str satisfiesTitle) p page) f =
  React.element (headingTag page) (headingProps styles_title props)
    [headingContent page p satisfiesMarkup].
Proof.
  unfold rendered, BlogPostItemHeaderTitle, post. cbn. now destruct page.
Qed.

Lemma rendered_shape (t p : JS.value) (page : bool) (f : React.fiber) :
  rendered styles_title props (post t p page) f =
  React.element (headingTag page) (headingProps styles_title props)
    [headingContent page p (shownTitle t)].
Proof.
  unfold shownTitle.
  destruct (JS.strict_eq t (JS.str satisfiesTitle)) eqn:E.
  - destruct t as [|s]; [discriminate|].
    apply String.eqb_eq in E. subst s. apply rendered_satisfies.
  - now apply rendered_plain.
Qed.

Lemma textContent_heading (t p : JS.value) (page : bool) (f : React.fiber) :
  React.textContent (rendered styles_title props (post t p page) f) =
  React.textContent (shownTitle t).
Proof.
  rewrite rendered_shape. destruct page; cbn; now rewrite !append_empty_r.
Qed.

End Rendering.

(** C1. A title other than the special-cased literal is rendered as the raw
    text, unchanged: as the only child of an [h1] on the post's own page, and
    on the other pages as the only child of a link to the permalink that is
    itself the only child of an [h2]. *)
Theorem plain_title_rendered_verbatim
  (styles_title : string) (props : Props) (s : string) (p : JS.value)
  (f : React.fiber) :
  s <> satisfiesTitle ->
  rendered styles_title props (post (JS.str s) p true) f =
    React.element (React.host "h1") (headingProps styles_title props)
      [React.prim (JS.str s)]
  /\
  rendered styles_title props (post (JS.str s) p false) f =
    React.element (React.host "h2") (headingProps styles_title props)
      [React.element React.Link
         (React.mkProps None (Some "url") (Some p))
         [React.prim (JS.str s)]].
Proof.
  intros H.
  assert (E : JS.strict_eq (JS.str s) (JS.str satisfiesTitle) = false)
    by now apply String.eqb_neq.
  split; now rewrite rendered_plain.
Qed.

Lemma plain_title_rendered_verbatim_witness :
  "Branded Types" <> satisfiesTitle /\
  rendered "title_x" (mkPropsOf JS.undefined)
    (post (JS.str "Branded Types") (JS.str "/articles/branded-types") true)
    React.unmounted =
    React.element (React.host "h1")
      (headingProps "title_x" (mkPropsOf JS.undefined))
      [React.prim (JS.str "Branded Types")]
  /\
  rendered "title_x" (mkPropsOf JS.undefined)
    (post (JS.str "Branded Types") (JS.str "/articles/branded-types") false)
    React.unmounted =
    React.element (React.host "h2")
      (headingProps "title_x" (mkPropsOf JS.undefined))
      [React.element React.Link
         (React.mkProps None (Some "url")
            (Some (JS.str "/articles/branded-types")))
         [React.prim (JS.str "Branded Types")]].
Proof.
  assert (H : "Branded Types" <> satisfiesTitle)
    by (unfold satisfiesTitle; discriminate).
  split; [exact H|].
  exact (plain_title_rendered_verbatim "title_x" (mkPropsOf JS.undefined)
           "Branded Types" (JS.str "/articles/branded-types") React.unmounted H).
Defined.

(** C3, as the specification words it, fails: on the post's own page the
    heading content for the special-cased title is not a prefix text followed
    by a code element and nothing more. *)
Lemma satisfies_markup_has_suffix :
  ~ (exists prefix codeProps codeChildren,
       childrenOf
         (rendered "title_x" (mkPropsOf JS.undefined)
            (post (JS.str satisfiesTitle) (JS.str "/articles/satisfies") true)
            React.unmounted) =
       [React.element React.Fragment React.noProps
          [React.prim (JS.str prefix);
           React.element (React.host "code") codeProps codeChildren]]).
Proof.
  intros (prefix & codeProps & codeChildren & H).
  rewrite rendered_satisfies in H. cbn in H. discriminate H.
Qed.

(** C3, amended. For the special-cased title and either value of the page
    flag, the heading content is the fixed markup: the text [The ], a [code]
    element holding [satisfies], and then the text [ operator]. *)
Theorem satisfies_title_substituted
  (styles_title : string) (props : Props) (p : JS.value) (f : React.fiber) :
  childrenOf (rendered styles_title props (post (JS.str satisfiesTitle) p true) f) =
    [React.element React.Fragment React.noProps
       [React.prim (JS.str "The ");
        React.element (React.host "code") React.noProps
          [React.prim (JS.str "satisfies")];
        React.prim (JS.str " operator")]]
  /\
  childrenOf (rendered styles_title props (post (JS.str satisfiesTitle) p false) f) =
    [React.element React.Link (React.mkProps None (Some "url") (Some p))
       [React.element React.Fragment React.noProps
          [React.prim (JS.str "The ");
           React.element (React.host "code") React.noProps
             [React.prim (JS.str "satisfies")];
           React.prim (JS.str " operator")]]].
Proof.
  split; now rewrite rendered_satisfies.
Qed.

(** C7. With the title and the permalink fixed, the two values of the page
    flag give the same heading props and the same title content; they differ
    in the heading level and in the link around the content, and the text of
    the two headings is the same. *)
Theorem page_flag_changes_only_wrapping
  (styles_title : string) (props : Props) (t p : JS.value)
  (f f' : React.fiber) :
  exists content hp,
    rendered styles_title props (post t p false) f =
      React.element (React.host "h2") hp
        [React.element React.Link (linkProps p) [content]] /\
    rendered styles_title props (post t p true) f' =
      React.element (React.host "h1") hp [content] /\
    React.textContent (rendered styles_title props (post t p false) f) =
    React.textContent (rendered styles_title props (post t p true) f').
Proof.
  exists (shownTitle t), (headingProps styles_title props).
  rewrite !textContent_heading, !rendered_shape. now repeat split.
Qed.

(** ** The document-title effect *)

Section Effect.

Variable styles_title : string.
Variable props : Props.

(** Mounting with a string title completes, runs the effect once and leaves
    the title without its first backtick in the document. *)
Lemma mount_string (s : string) (p : JS.value) (page : bool) (d : React.document) :
  exists f,
    mount styles_title props (post (JS.str s) p page) d =
      JS.normal (rendered styles_title props (post (JS.str s) p page) React.unmounted,
                 (f, React.mkDocument (removeFirst backtick s)))
    /\ React.effectRuns f = 1.
Proof.
  rewrite <- replace_backtick.
  unfold mount, renderPass, rendered, BlogPostItemHeaderTitle, post.
  cbn -[JS.replace].
  destruct (String.eqb s satisfiesTitle); destruct page; cbn -[JS.replace];
    eexists; split; reflexivity.
Qed.

Lemma documentTitle_mount (s : string) (p : JS.value) (page : bool) (d : React.document) :
  documentTitle (mount styles_title props (post (JS.str s) p page) d) =
  Some (removeFirst backtick s).
Proof.
  destruct (mount_string s p page d) as (f & E & _). now rewrite E.
Qed.

(** With an absent title the effect's method call throws. *)
Lemma mount_absent (p : JS.value) (page : bool) (d : React.document) :
  mount styles_title props (post JS.undefined p page) d = JS.throw JS.TypeError.
Proof.
  now destruct page.
Qed.

(** With a string title a render pass completes from every state. *)
Lemma renderPass_string_completes (s : string) (p : JS.value) (page : bool)
  (st : React.fiber * React.document) :
  exists out st',
    renderPass styles_title props (post (JS.str s) p page) st = JS.normal (out, st').
Proof.
  destruct st as [f d].
  unfold renderPass, BlogPostItemHeaderTitle, post, React.commitPassiveEffects.
  cbn -[JS.replace React.areHookInputsEqual].
  destruct (String.eqb s satisfiesTitle); destruct page;
    cbn -[JS.replace React.areHookInputsEqual];
    destruct (React.memoizedDeps f) as [prev|];
    try destruct (negb (React.areHookInputsEqual _ prev));
    cbn -[JS.replace]; eexists; eexists; reflexivity.
Qed.

(** A re-render with the same plain title leaves the effect alone. *)
Lemma rerender_plain (s : string) (p : JS.value) (page : bool)
  (f : React.fiber) (d : React.document) :
  s <> satisfiesTitle ->
  React.memoizedDeps f = Some [React.byValue (JS.str s)] ->
  exists f',
    renderPass styles_title props (post (JS.str s) p page) (f, d) =
      JS.normal (rendered styles_title props (post (JS.str s) p page) f, (f', d))
    /\ React.memoizedDeps f' = Some [React.byValue (JS.str s)]
    /\ React.effectRuns f' = React.effectRuns f.
Proof.
  intros Hs Hd. apply String.eqb_neq in Hs.
  unfold renderPass, rendered, BlogPostItemHeaderTitle, post,
    React.commitPassiveEffects.
  cbn -[JS.replace]. rewrite Hs. destruct page; cbn -[JS.replace];
    rewrite Hd; cbn -[JS.replace]; rewrite String.eqb_refl; cbn;
    eexists; repeat split; reflexivity.
Qed.

(** A re-render with the special-cased title runs the effect again: the
    dependency is an element created by this render. *)
Lemma rerender_satisfies (p : JS.value) (page : bool)
  (f : React.fiber) (d : React.document) (r : nat) :
  React.memoizedDeps f = Some [React.byRef r] ->
  r < React.nextRef f ->
  exists f',
    renderPass styles_title props (post (JS.str satisfiesTitle) p page) (f, d) =
      JS.normal (rendered styles_title props (post (JS.str satisfiesTitle) p page) f,
                 (f', React.mkDocument "The satisfies` Operator"))
    /\ React.memoizedDeps f' = Some [React.byRef (S (React.nextRef f))]
    /\ S (React.nextRef f) < React.nextRef f'
    /\ React.effectRuns f' = S (React.effectRuns f).
Proof.
  intros Hd Hr.
  assert (E : Nat.eqb (S (React.nextRef f)) r = false)
    by (apply Nat.eqb_neq; lia).
  unfold renderPass, rendered, BlogPostItemHeaderTitle, post,
    React.commitPassiveEffects.
  destruct page; cbn -[Nat.eqb]; rewrite Hd; cbn -[Nat.eqb]; rewrite E; cbn;
    eexists; repeat split; try reflexivity; cbn; lia.
Qed.

End Effect.

(** ** Sequences of renders *)

Section Renders.

Variable styles_title : string.
Variable props : Props.

Lemma mount_plain (s : string) (p : JS.value) (page : bool) (d : React.document) :
  s <> satisfiesTitle ->
  exists f,
    mount styles_title props (post (JS.str s) p page) d =
      JS.normal (rendered styles_title props (post (JS.str s) p page) React.unmounted,
                 (f, React.mkDocument (removeFirst backtick s)))
    /\ React.memoizedDeps f = Some [React.byValue (JS.str s)]
    /\ React.effectRuns f = 1.
Proof.
  intros Hs. apply String.eqb_neq in Hs.
  rewrite <- replace_backtick.
  unfold mount, renderPass, rendered, BlogPostItemHeaderTitle, post.
  cbn -[JS.replace]. rewrite Hs.
  destruct page; cbn -[JS.replace]; eexists; repeat split; reflexivity.
Qed.

Lemma mount_satisfies (p : JS.value) (page : bool) (d : React.document) :
  exists f,
    mount styles_title props (post (JS.str satisfiesTitle) p page) d =
      JS.normal (rendered styles_title props (post (JS.str satisfiesTitle) p page)
                   React.unmounted,
                 (f, React.mkDocument "The satisfies` Operator"))
    /\ React.memoizedDeps f = Some [React.byRef 1]
    /\ 1 < React.nextRef f
    /\ React.effectRuns f = 1.
Proof.
  destruct page; cbn; eexists; repeat split; try reflexivity; cbn; lia.
Qed.

(** However often a plain title is rendered again, the effect does not run
    again and the document keeps its title. *)
Lemma renderAll_plain (s : string) (p : JS.value) (page : bool) (n : nat) :
  s <> satisfiesTitle ->
  forall (f : React.fiber) (d : React.document),
    React.memoizedDeps f = Some [React.byValue (JS.str s)] ->
    exists outs f',
      renderAll styles_title (repeat (props, post (JS.str s) p page) n) (f, d) =
        JS.normal (outs, (f', d))
      /\ React.effectRuns f' = React.effectRuns f.
Proof.
  intros Hs. induction n as [|n IH]; intros f d Hd.
  - exists [], f. now split.
  - destruct (rerender_plain styles_title props s p page f d Hs Hd)
      as (f1 & E1 & Hd1 & R1).
    destruct (IH f1 d Hd1) as (outs & f2 & E2 & R2).
    exists (rendered styles_title props (post (JS.str s) p page) f :: outs), f2.
    cbn [repeat renderAll]. rewrite E1, E2. split; [reflexivity | congruence].
Qed.

(** Every further render of the special-cased title runs the effect again. *)
Lemma renderAll_satisfies (p : JS.value) (page : bool) (n : nat) :
  forall (f : React.fiber) (d : React.document) (r : nat),
    React.memoizedDeps f = Some [React.byRef r] ->
    r < React.nextRef f ->
    exists outs f' d',
      renderAll styles_title
        (repeat (props, post (JS.str satisfiesTitle) p page) n) (f, d) =
        JS.normal (outs, (f', d'))
      /\ React.effectRuns f' = n + React.effectRuns f.
Proof.
  induction n as [|n IH]; intros f d r Hd Hr.
  - exists [], f, d. now split.
  - destruct (rerender_satisfies styles_title props p page f d r Hd Hr)
      as (f1 & E1 & Hd1 & Hr1 & R1).
    destruct (IH f1 (React.mkDocument "The satisfies` Operator") _ Hd1 Hr1)
      as (outs & f2 & d2 & E2 & R2).
    eexists (_ :: outs), f2, d2.
    cbn [repeat renderAll]. rewrite E1, E2. split; [reflexivity | lia].
Qed.

(** X5. A plain title rendered over and over costs one run of the effect:
    after any number of renders with the same title, other than the
    special-cased one, the effect has run once and the document shows the
    title without its first backtick. *)
Lemma plain_title_effect_once (s : string) (p : JS.value) (page : bool)
  (n : nat) (d : React.document) :
  s <> satisfiesTitle ->
  exists outs f,
    renderAll styles_title (repeat (props, post (JS.str s) p page) (S n))
      (React.unmounted, d) =
      JS.normal (outs, (f, React.mkDocument (removeFirst backtick s)))
    /\ React.effectRuns f = 1.
Proof.
  intros Hs.
  destruct (mount_plain s p page d Hs) as (f1 & E1 & Hd1 & R1).
  destruct (renderAll_plain s p page n Hs f1
              (React.mkDocument (removeFirst backtick s)) Hd1)
    as (outs & f2 & E2 & R2).
  eexists (_ :: outs), f2. cbn [repeat renderAll].
  unfold mount in E1. rewrite E1, E2. split; [reflexivity | congruence].
Qed.

(** From the mount on, the special-cased title costs one run per render. *)
Lemma satisfies_title_effect_every_render (p : JS.value) (page : bool)
  (n : nat) (d : React.document) :
  exists outs f d',
    renderAll styles_title
      (repeat (props, post (JS.str satisfiesTitle) p page) n)
      (React.unmounted, d) =
      JS.normal (outs, (f, d'))
    /\ React.effectRuns f = n.
Proof.
  destruct n as [|n].
  - exists [], React.unmounted, d. now split.
  - destruct (mount_satisfies p page d) as (f1 & E1 & Hd1 & Hr1 & R1).
    destruct (renderAll_satisfies p page n f1 (React.mkDocument "The satisfies` Operator") 1 Hd1 Hr1)
      as (outs & f2 & d2 & E2 & R2).
    eexists (_ :: outs), f2, d2. cbn [repeat renderAll].
    unfold mount in E1. rewrite E1, E2. split; [reflexivity | lia].
Qed.

End Renders.

(** ** Class names *)

Lemma clsx_title (t : string) (cn : JS.value) :
  t <> "" ->
  clsx [JS.str t; cn] = t ++ (if JS.truthy cn then " " ++ toVal cn else "").
Proof.
  intros Ht. apply String.eqb_neq in Ht.
  unfold clsx. cbn [clsx_from JS.truthy toVal].
  rewrite Ht. cbn [negb String.eqb append].
  destruct cn as [|c]; cbn [JS.truthy toVal].
  - now rewrite append_empty_r.
  - destruct (String.eqb c ""); cbn [negb].
    + now rewrite append_empty_r.
    + rewrite Ht. cbn [negb]. now rewrite append_assoc.
Qed.

Lemma splitOnWhitespace_token (t rest token : string) :
  noWhitespace t = true ->
  splitOnWhitespace (t ++ rest) token = splitOnWhitespace rest (token ++ t).
Proof.
  revert token. induction t as [|a t IH]; intros token H.
  - now rewrite append_empty_r.
  - cbn [noWhitespace] in H. apply andb_true_iff in H. destruct H as [Ha Ht].
    apply negb_true_iff in Ha.
    cbn [append splitOnWhitespace]. rewrite Ha, (IH _ Ht), append_assoc.
    reflexivity.
Qed.

Lemma classList_first (t rest : string) :
  t <> "" -> noWhitespace t = true ->
  rest = "" \/ (exists c, rest = " " ++ c) ->
  In t (classList (t ++ rest)).
Proof.
  intros Ht Hw Hrest. apply String.eqb_neq in Ht.
  unfold classList. rewrite splitOnWhitespace_token by exact Hw.
  cbn [append]. destruct Hrest as [-> | [c ->]].
  - cbn [splitOnWhitespace]. rewrite Ht. now left.
  - cbn [append splitOnWhitespace]. 
    change (isAsciiWhitespace " ") with true. cbn iota. rewrite Ht. now left.
Qed.

(** ** The document title *)

(** C2, as the specification words it, fails: a title other than the
    special-cased one that holds a backtick does not reach the document
    verbatim. *)
Lemma backtick_title_not_verbatim :
  "Using `satisfies`" <> satisfiesTitle /\
  documentTitle
    (mount "title_x" (mkPropsOf JS.undefined)
       (post (JS.str "Using `satisfies`") (JS.str "/articles/using-satisfies") true)
       (React.mkDocument "Learning TypeScript"))
  <> Some "Using `satisfies`".
Proof.
  split; [unfold satisfiesTitle; discriminate | cbn; discriminate].
Qed.

(** C2, amended. For the special-cased title the document title is the raw
    title with exactly one backtick taken out and the rest intact; for every
    title that holds no backtick the document title is the raw title
    verbatim. *)
Theorem document_title_synced
  (styles_title : string) (props : Props) (p : JS.value) (page : bool)
  (d : React.document) (s : string) :
  occurrences backtick s = 0 ->
  (exists before after,
     satisfiesTitle = before ++ String backtick after /\
     documentTitle
       (mount styles_title props (post (JS.str satisfiesTitle) p page) d) =
     Some (before ++ after))
  /\
  documentTitle (mount styles_title props (post (JS.str s) p page) d) = Some s.
Proof.
  intros H. split.
  - exists "The ", "satisfies` Operator". split; [reflexivity|].
    now rewrite documentTitle_mount.
  - now rewrite documentTitle_mount, removeFirst_absent.
Qed.

Lemma document_title_synced_witness :
  occurrences backtick "Branded Types" = 0 /\
  documentTitle
    (mount "title_x" (mkPropsOf JS.undefined)
       (post (JS.str "Branded Types") (JS.str "/articles/branded-types") true)
       (React.mkDocument "Learning TypeScript"))
  = Some "Branded Types".
Proof.
  split; [reflexivity|].
  apply (document_title_synced "title_x" (mkPropsOf JS.undefined)
           (JS.str "/articles/branded-types") true
           (React.mkDocument "Learning TypeScript") "Branded Types").
  reflexivity.
Defined.

(** C4. On its own page the special-cased title is rendered as the [h1]
    holding the substituted markup, and the document title it leaves behind
    is the raw title without its first backtick only: the second one is
    still there, so it is not the backtick-free text. *)
Theorem satisfies_title_on_post_page
  (styles_title : string) (props : Props) (p : JS.value) (d : React.document) :
  exists f,
    mount styles_title props (post (JS.str satisfiesTitle) p true) d =
      JS.normal
        (React.element (React.host "h1") (headingProps styles_title props)
           [React.element React.Fragment React.noProps
              [React.prim (JS.str "The ");
               React.element (React.host "code") React.noProps
                 [React.prim (JS.str "satisfies")];
               React.prim (JS.str " operator")]],
         (f, React.mkDocument "The satisfies` Operator"))
    /\ occurrences backtick "The satisfies` Operator" = 1
    /\ "The satisfies` Operator" <> "The satisfies Operator".
Proof.
  eexists. split; [reflexivity|]. split; [reflexivity | discriminate].
Qed.

(** C8. For a title that holds a backtick, the document title is the raw
    title without its first backtick: everything before and after it is
    kept, later backticks included, so one backtick less is left; and unless
    the title held exactly one, the document title is neither the raw title
    nor free of backticks. *)
Theorem only_first_backtick_removed
  (styles_title : string) (props : Props) (p : JS.value) (page : bool)
  (d : React.document) (s : string) :
  1 <= occurrences backtick s ->
  exists t,
    documentTitle (mount styles_title props (post (JS.str s) p page) d) = Some t
    /\ (exists before after,
          s = before ++ String backtick after /\
          occurrences backtick before = 0 /\
          t = before ++ after)
    /\ occurrences backtick t = occurrences backtick s - 1
    /\ (occurrences backtick s <> 1 ->
        t <> s /\ 1 <= occurrences backtick t).
Proof.
  intros H. exists (removeFirst backtick s).
  split; [apply documentTitle_mount|].
  split; [now apply removeFirst_split|].
  split; [apply occurrences_removeFirst|].
  intros H1. split.
  - now apply removeFirst_changes.
  - rewrite occurrences_removeFirst. lia.
Qed.

Lemma only_first_backtick_removed_witness :
  1 <= occurrences backtick "a `b` and `c`" /\
  exists t,
    documentTitle
      (mount "title_x" (mkPropsOf JS.undefined)
         (post (JS.str "a `b` and `c`") (JS.str "/articles/a") false)
         (React.mkDocument "Learning TypeScript")) = Some t
    /\ (exists before after,
          "a `b` and `c`" = before ++ String backtick after /\
          occurrences backtick before = 0 /\
          t = before ++ after)
    /\ occurrences backtick t = occurrences backtick "a `b` and `c`" - 1
    /\ (occurrences backtick "a `b` and `c`" <> 1 ->
        t <> "a `b` and `c`" /\ 1 <= occurrences backtick t).
Proof.
  assert (H : 1 <= occurrences backtick "a `b` and `c`") by (cbn; lia).
  split; [exact H|].
  exact (only_first_backtick_removed "title_x" (mkPropsOf JS.undefined)
           (JS.str "/articles/a") false
           (React.mkDocument "Learning TypeScript") "a `b` and `c`" H).
Defined.

(** ** Re-renders *)

(** C5. Two renders in a row with the same inputs give the same output
    twice; with the special-cased title the effect has then run twice, once
    per render, although the title did not change in between. *)
Theorem satisfies_title_effect_runs_twice
  (styles_title : string) (props : Props) (p : JS.value) (page : bool)
  (d : React.document) :
  exists out f d',
    renderAll styles_title
      [(props, post (JS.str satisfiesTitle) p page);
       (props, post (JS.str satisfiesTitle) p page)]
      (React.unmounted, d) =
      JS.normal ([out; out], (f, d'))
    /\ React.effectRuns f = 2.
Proof.
  destruct page; cbn; eexists; eexists; eexists; split; reflexivity.
Qed.

(** ** Failure *)

(** C6, as the specification words it, fails: with an absent title the
    render pass does not complete, the effect throws. *)
Lemma absent_title_throws :
  mount "title_x" (mkPropsOf JS.undefined)
    (post JS.undefined (JS.str "/articles/untitled") true)
    (React.mkDocument "Learning TypeScript")
  = JS.throw JS.TypeError.
Proof.
  reflexivity.
Qed.

(** C6, amended. For every title string, the empty one included, a render
    pass completes from every state of the instance; an empty title gives a
    heading without text, and mounting it leaves the empty string as the
    document title. *)
Theorem string_title_never_fails
  (styles_title : string) (props : Props) (s : string) (p : JS.value)
  (page : bool) (f : React.fiber) (d : React.document) :
  (exists out st',
     renderPass styles_title props (post (JS.str s) p page) (f, d) =
     JS.normal (out, st'))
  /\ React.textContent
       (rendered styles_title props (post (JS.str "") p page) f) = ""
  /\ childrenOf (rendered styles_title props (post (JS.str "") p true) f) =
       [React.prim (JS.str "")]
  /\ documentTitle (mount styles_title props (post (JS.str "") p page) d) =
       Some "".
Proof.
  split; [apply renderPass_string_completes|].
  split; [now rewrite textContent_heading|].
  split; [now rewrite rendered_shape|].
  now rewrite documentTitle_mount.
Qed.

(** ** The permalink and the heading's props *)

(** C9. On the post's own page the output does not depend on the permalink;
    and on either kind of page the state a render pass leaves behind (the
    document title, the hook's memory, the count of effect runs, or the
    error thrown) does not depend on it. *)
Theorem permalink_irrelevant
  (styles_title : string) (props : Props) (t p1 p2 : JS.value) :
  (forall f : React.fiber,
     rendered styles_title props (post t p1 true) f =
     rendered styles_title props (post t p2 true) f)
  /\
  (forall (page : bool) (st : React.fiber * React.document),
     stateAfter (renderPass styles_title props (post t p1 page) st) =
     stateAfter (renderPass styles_title props (post t p2 page) st)).
Proof.
  split.
  - intros f. now rewrite !rendered_shape.
  - intros page [f d].
    unfold renderPass, BlogPostItemHeaderTitle, post. cbn.
    destruct (JS.strict_eq t (JS.str satisfiesTitle)); destruct page; cbn;
      match goal with
      | |- context [React.commitPassiveEffects ?x ?y] =>
          destruct (React.commitPassiveEffects x y)
      end; reflexivity.
Qed.

(** C10. Whatever the title, the permalink, the page flag and the
    [className] prop, the component returns a heading element whose
    [itemProp] is [headline] and whose class list holds the title class of
    the style sheet (a class name: not empty and without whitespace). *)
Theorem heading_carries_headline_and_title_class
  (styles_title : string) (props : Props) (blogPost : BlogPost)
  (f : React.fiber) :
  styles_title <> "" ->
  noWhitespace styles_title = true ->
  exists tag hp children cn,
    rendered styles_title props blogPost f =
      React.element (React.host tag) hp children
    /\ (tag = "h1" \/ tag = "h2")
    /\ React.itemProp hp = Some "headline"
    /\ React.className hp = Some cn
    /\ In styles_title (classList cn).
Proof.
  intros Hne Hws.
  destruct blogPost as [[p t] page].
  change (mkBlogPost (mkMetadata p t) page) with (post t p page).
  rewrite rendered_shape.
  exists (if page then "h1" else "h2"), (headingProps styles_title props),
    [headingContent page p (shownTitle t)],
    (clsx [JS.str styles_title; className props]).
  split; [now destruct page|].
  split; [destruct page; auto|].
  split; [reflexivity|]. split; [reflexivity|].
  rewrite clsx_title by exact Hne.
  apply classList_first; try assumption.
  destruct (JS.truthy (className props)); [right; eauto | now left].
Qed.

Lemma heading_carries_headline_and_title_class_witness :
  "title_x" <> "" /\ noWhitespace "title_x" = true /\
  exists tag hp children cn,
    rendered "title_x" (mkPropsOf (JS.str "margin-bottom--md"))
      (post (JS.str "Branded Types") (JS.str "/articles/branded-types") false)
      React.unmounted =
      React.element (React.host tag) hp children
    /\ (tag = "h1" \/ tag = "h2")
    /\ React.itemProp hp = Some "headline"
    /\ React.className hp = Some cn
    /\ In "title_x" (classList cn).
Proof.
  assert (H1 : "title_x" <> "") by discriminate.
  assert (H2 : noWhitespace "title_x" = true) by reflexivity.
  split; [exact H1|]. split; [exact H2|].
  exact (heading_carries_headline_and_title_class "title_x"
           (mkPropsOf (JS.str "margin-bottom--md"))
           (post (JS.str "Branded Types") (JS.str "/articles/branded-types") false)
           React.unmounted H1 H2).
Defined.

(** ** The instance over a sequence of string titles *)

Section Sequences.

Variable styles_title : string.

(** One render pass of a mounted instance with a string title: the output
    is the component's, the hook memoizes the new dependency, and the effect
    runs, rewriting the document, exactly when [Object.is] tells the new
    dependency from the old one. *)
Lemma renderPass_update (props : Props) (s : string) (p : JS.value)
  (page : bool) (f : React.fiber) (d : React.document) (prev : React.dep) :
  React.memoizedDeps f = Some [prev] ->
  exists f',
    renderPass styles_title props (post (JS.str s) p page) (f, d) =
      JS.normal
        (rendered styles_title props (post (JS.str s) p page) f,
         (f', if React.Object_is (titleDep f s) prev then d
              else React.mkDocument (removeFirst backtick s)))
    /\ React.memoizedDeps f' = Some [titleDep f s]
    /\ (String.eqb s satisfiesTitle = true ->
        S (React.nextRef f) < React.nextRef f')
    /\ React.effectRuns f' =
       (if React.Object_is (titleDep f s) prev then 0 else 1)
       + React.effectRuns f.
Proof.
  intros Hd. rewrite <- replace_backtick.
  unfold renderPass, rendered, BlogPostItemHeaderTitle, post,
    React.commitPassiveEffects, titleDep.
  cbn -[JS.replace React.Object_is].
  destruct (String.eqb s satisfiesTitle); destruct page;
    cbn -[JS.replace React.Object_is]; rewrite Hd;
    cbn -[JS.replace React.Object_is]; rewrite andb_true_r;
    match goal with
    | |- context [React.Object_is ?a ?b] => destruct (React.Object_is a b)
    end;
    cbn -[JS.replace]; eexists;
    (split; [reflexivity|]); (split; [reflexivity|]);
    (split; [intros; try discriminate; cbn; lia | reflexivity]).
Qed.

Lemma last_cons_default {A : Type} (l : list A) :
  forall x d : A, last (x :: l) d = last l x.
Proof.
  induction l as [|y l IH]; intros x d; [reflexivity|].
  change (last (x :: y :: l) d) with (last (y :: l) d).
  now rewrite (IH y d), (IH y x).
Qed.

(** A render with a string title takes a synced instance to a synced one,
    and runs the effect when [rerun] says so. *)
Lemma synced_step (props : Props) (s : string) (p : JS.value) (page : bool)
  (f : React.fiber) (d : React.document) (t : string) :
  synced f d t ->
  exists f',
    renderPass styles_title props (post (JS.str s) p page) (f, d) =
      JS.normal
        (rendered styles_title props (post (JS.str s) p page) f,
         (f', React.mkDocument (removeFirst backtick s)))
    /\ synced f' (React.mkDocument (removeFirst backtick s)) s
    /\ React.effectRuns f' = (if rerun t s then 1 else 0) + React.effectRuns f.
Proof.
  destruct d as [dt]. intros [Hdoc Hm]. cbn in Hdoc. subst dt.
  destruct (React.memoizedDeps f) as [[|prev rest]|] eqn:Hd; try contradiction.
  destruct rest; [|destruct prev as [[|?]|?]; contradiction].
  destruct (renderPass_update props s p page f
              (React.mkDocument (removeFirst backtick t)) prev Hd)
    as (f' & E & Hd' & Hn & R).
  exists f'. unfold synced, rerun. rewrite Hd'. cbn [React.title].
  unfold titleDep in *.
  destruct (String.eqb s satisfiesTitle) eqn:Es.
  - (* the special-cased title: a new fragment, never the remembered value *)
    apply String.eqb_eq in Es.
    assert (O : React.Object_is (React.byRef (S (React.nextRef f))) prev = false).
    { destruct prev as [v | r]; [reflexivity|].
      destruct Hm as [_ Hr]. cbn [React.Object_is]. apply Nat.eqb_neq. lia. }
    rewrite O in E, R. rewrite orb_true_r.
    repeat split; auto.
  - apply String.eqb_neq in Es.
    destruct prev as [[|s0] | r]; try contradiction.
    + (* after a plain title: the strings are compared *)
      destruct Hm as [-> Ht]. cbn [React.Object_is JS.strict_eq] in E, R.
      rewrite orb_false_r.
      destruct (String.eqb s t) eqn:Est; cbn [negb].
      * apply String.eqb_eq in Est. subst t. repeat split; auto.
      * repeat split; auto.
    + (* after the special-cased title: a string is never that element *)
      destruct Hm as [-> Hr]. cbn [React.Object_is] in E, R.
      apply String.eqb_neq in Es. rewrite Es. cbn [negb orb].
      apply String.eqb_neq in Es. repeat split; auto.
Qed.

(** Mounting with a string title gives a synced instance. *)
Lemma mount_synced (props : Props) (s : string) (p : JS.value) (page : bool)
  (d : React.document) :
  exists f,
    mount styles_title props (post (JS.str s) p page) d =
      JS.normal
        (rendered styles_title props (post (JS.str s) p page) React.unmounted,
         (f, React.mkDocument (removeFirst backtick s)))
    /\ synced f (React.mkDocument (removeFirst backtick s)) s
    /\ React.effectRuns f = 1.
Proof.
  destruct (String.eqb s satisfiesTitle) eqn:Es.
  - apply String.eqb_eq in Es. subst s.
    destruct (mount_satisfies styles_title props p page d)
      as (f & E & Hd & Hr & R).
    exists f. unfold synced. rewrite Hd. repeat split; auto.
  - apply String.eqb_neq in Es.
    destruct (mount_plain styles_title props s p page d Es) as (f & E & Hd & R).
    exists f. unfold synced. rewrite Hd. repeat split; auto.
Qed.

(** Further renders with string titles, from a synced instance. *)
Lemma renderAll_synced (l : list renderInput) :
  forall (f : React.fiber) (d : React.document) (t : string),
    synced f d t ->
    exists f',
      renderAll styles_title (map inputOf l) (f, d) =
        JS.normal
          (map (freshOutput styles_title) l,
           (f', React.mkDocument (removeFirst backtick (last (map titleOf l) t))))
      /\ synced f' (React.mkDocument (removeFirst backtick (last (map titleOf l) t)))
           (last (map titleOf l) t)
      /\ React.effectRuns f' = effectsAfter t (map titleOf l) + React.effectRuns f.
Proof.
  induction l as [|[[[props s] p] page] l IH]; intros f d t H.
  - exists f. destruct d as [dt]. destruct H as [Hdoc Hm]. cbn in Hdoc. subst dt.
    cbn. repeat split; auto.
  - destruct (synced_step props s p page f d t H) as (f1 & E1 & H1 & R1).
    destruct (IH f1 _ s H1) as (f2 & E2 & H2 & R2).
    exists f2.
    cbn [map inputOf titleOf renderAll effectsAfter].
    rewrite !last_cons_default, E1, E2.
    split; [|split; [exact H2 | lia]].
    change (freshOutput styles_title (props, s, p, page))
      with (rendered styles_title props (post (JS.str s) p page) React.unmounted).
    now rewrite (rendered_shape _ _ _ _ _ f),
      (rendered_shape _ _ _ _ _ React.unmounted).
Qed.

End Sequences.

Section Aborts.

Variable styles_title : string.

(** With an absent title the effect is flagged after every string title,
    and throws. *)
Lemma renderPass_absent_synced (props : Props) (p : JS.value) (page : bool)
  (f : React.fiber) (d : React.document) (t : string) :
  synced f d t ->
  renderPass styles_title props (post JS.undefined p page) (f, d) =
  JS.throw JS.TypeError.
Proof.
  intros [_ Hm].
  destruct (React.memoizedDeps f) as [[|prev rest]|] eqn:Hd; try contradiction.
  unfold renderPass, BlogPostItemHeaderTitle, post, React.commitPassiveEffects.
  destruct prev as [[|s0] | r]; try contradiction;
    (destruct rest; [|contradiction]);
    destruct page; cbn; rewrite Hd; reflexivity.
Qed.

Lemma renderAll_absent_synced (props : Props) (p : JS.value) (page : bool)
  (rest : list (Props * BlogPost)) (l : list renderInput) :
  forall (f : React.fiber) (d : React.document) (t : string),
    synced f d t ->
    renderAll styles_title
      (map inputOf l ++ (props, post JS.undefined p page) :: rest) (f, d) =
    JS.throw JS.TypeError.
Proof.
  induction l as [|[[[props2 s2] p2] page2] l IH]; intros f d t H.
  - cbn [map app renderAll].
    now rewrite (renderPass_absent_synced props p page f d t H).
  - destruct (synced_step styles_title props2 s2 p2 page2 f d t H)
      as (f2 & E2 & H2 & _).
    cbn [map app inputOf renderAll]. rewrite E2.
    now rewrite (IH f2 _ s2 H2).
Qed.

End Aborts.

(** ** Properties of a mounted instance *)

(** X1. A sequence of renders with string titles completes, and each output
    is what a fresh instance returns for that input alone: nothing of the
    earlier renders shows in it. *)
Theorem renders_complete_with_fresh_outputs
  (styles_title : string) (l : list renderInput) (d : React.document) :
  exists st,
    renderAll styles_title (map inputOf l) (React.unmounted, d) =
    JS.normal (map (freshOutput styles_title) l, st).
Proof.
  destruct l as [|[[[props s] p] page] l].
  - eexists. reflexivity.
  - destruct (mount_synced styles_title props s p page d) as (f1 & E1 & H1 & _).
    destruct (renderAll_synced styles_title l f1 _ s H1) as (f2 & E2 & _).
    eexists. cbn [map inputOf renderAll].
    unfold mount in E1. rewrite E1, E2. reflexivity.
Qed.

(** X2. After any non-empty sequence of renders with string titles, the
    document title is the title of the last render without its first
    backtick, whatever was rendered before and whatever the document title
    was at the start. *)
Theorem document_title_follows_last_title
  (styles_title : string) (l : list renderInput) (d : React.document) :
  l <> [] ->
  documentTitle (renderAll styles_title (map inputOf l) (React.unmounted, d)) =
  Some (removeFirst backtick (last (map titleOf l) "")).
Proof.
  destruct l as [|[[[props s] p] page] l]; [congruence|]. intros _.
  destruct (mount_synced styles_title props s p page d) as (f1 & E1 & H1 & _).
  destruct (renderAll_synced styles_title l f1 _ s H1) as (f2 & E2 & _).
  cbn [map inputOf titleOf renderAll].
  unfold mount in E1. rewrite E1, E2, last_cons_default. reflexivity.
Qed.

Lemma document_title_follows_last_title_witness :
  [(mkPropsOf JS.undefined, "Branded `Types`", JS.str "/articles/branded-types", true);
   (mkPropsOf JS.undefined, satisfiesTitle, JS.str "/articles/satisfies", false);
   (mkPropsOf JS.undefined, "What is `TypeScript`?", JS.str "/articles/what", false)]
    <> ([] : list renderInput)
  /\
  documentTitle
    (renderAll "title_x"
       (map inputOf
          [(mkPropsOf JS.undefined, "Branded `Types`", JS.str "/articles/branded-types", true);
           (mkPropsOf JS.undefined, satisfiesTitle, JS.str "/articles/satisfies", false);
           (mkPropsOf JS.undefined, "What is `TypeScript`?", JS.str "/articles/what", false)])
       (React.unmounted, React.mkDocument "Learning TypeScript")) =
  Some "What is TypeScript`?".
Proof.
  assert (H : [(mkPropsOf JS.undefined, "Branded `Types`", JS.str "/articles/branded-types", true);
               (mkPropsOf JS.undefined, satisfiesTitle, JS.str "/articles/satisfies", false);
               (mkPropsOf JS.undefined, "What is `TypeScript`?", JS.str "/articles/what", false)]
              <> ([] : list renderInput)) by discriminate.
  split; [exact H|].
  exact (document_title_follows_last_title "title_x" _
           (React.mkDocument "Learning TypeScript") H).
Defined.

(** X3. Over a sequence of renders with string titles the effect runs once
    at the mount and once more for each later render whose title differs
    from the one before it or is the special-cased title; the props, the
    permalink and the page flag play no part in the count. *)
Theorem effect_runs_counted
  (styles_title : string) (l : list renderInput) (d : React.document) :
  exists outs f d',
    renderAll styles_title (map inputOf l) (React.unmounted, d) =
      JS.normal (outs, (f, d'))
    /\ React.effectRuns f = expectedEffectRuns (map titleOf l).
Proof.
  destruct l as [|[[[props s] p] page] l].
  - exists [], React.unmounted, d. now split.
  - destruct (mount_synced styles_title props s p page d) as (f1 & E1 & H1 & R1).
    destruct (renderAll_synced styles_title l f1 _ s H1) as (f2 & E2 & _ & R2).
    eexists _, f2, _. cbn [map inputOf titleOf renderAll expectedEffectRuns].
    unfold mount in E1. rewrite E1, E2. split; [reflexivity | lia].
Qed.

(** X4. An absent title aborts the sequence: when renders with string
    titles are followed by one whose title is absent, the run ends in a
    [TypeError] and the renders after it do not happen. *)
Theorem absent_title_aborts
  (styles_title : string) (l : list renderInput) (props : Props)
  (p : JS.value) (page : bool) (rest : list (Props * BlogPost))
  (d : React.document) :
  renderAll styles_title
    (map inputOf l ++ (props, post JS.undefined p page) :: rest)
    (React.unmounted, d) =
  JS.throw JS.TypeError.
Proof.
  destruct l as [|[[[props1 s] p1] page1] l].
  - cbn [map app renderAll].
    change (renderPass styles_title props (post JS.undefined p page)
              (React.unmounted, d))
      with (mount styles_title props (post JS.undefined p page) d).
    now rewrite mount_absent.
  - destruct (mount_synced styles_title props1 s p1 page1 d) as (f1 & E1 & H1 & _).
    cbn [map app inputOf renderAll]. unfold mount in E1. rewrite E1.
    now rewrite (renderAll_absent_synced styles_title props p page rest l f1 _ s H1).
Qed.

Lemma plain_title_effect_once_witness :
  "Branded Types" <> satisfiesTitle /\
  exists outs f,
    renderAll "title_x"
      (repeat (mkPropsOf JS.undefined,
               post (JS.str "Branded Types") (JS.str "/articles/branded-types") false)
              3)
      (React.unmounted, React.mkDocument "Learning TypeScript") =
      JS.normal (outs, (f, React.mkDocument (removeFirst backtick "Branded Types")))
    /\ React.effectRuns f = 1.
Proof.
  assert (H : "Branded Types" <> satisfiesTitle)
    by (unfold satisfiesTitle; discriminate).
  split; [exact H|].
  exact (plain_title_effect_once "title_x" (mkPropsOf JS.undefined)
           "Branded Types" (JS.str "/articles/branded-types") false 2
           (React.mkDocument "Learning TypeScript") H).
Defined.

(** X6. The heading's class list is the title class of the style sheet
    followed by the classes of the [className] prop, in their order: the
    prop adds to the title class and never replaces it, and an absent or
    empty prop leaves the title class alone. *)
Theorem heading_class_list
  (styles_title : string) (props : Props) (blogPost : BlogPost)
  (f : React.fiber) :
  styles_title <> "" ->
  noWhitespace styles_title = true ->
  exists cn,
    classNameOf (rendered styles_title props blogPost f) = Some cn
    /\ classList cn = styles_title :: classList (toVal (className props)).
Proof.
  intros Hne Hws.
  destruct blogPost as [[p t] page].
  change (mkBlogPost (mkMetadata p t) page) with (post t p page).
  rewrite rendered_shape.
  exists (clsx [JS.str styles_title; className props]).
  split; [reflexivity|].
  rewrite clsx_title by exact Hne.
  unfold classList. rewrite splitOnWhitespace_token by exact Hws.
  cbn [append]. apply String.eqb_neq in Hne.
  destruct (className props) as [|c]; cbn [JS.truthy toVal].
  - cbn [splitOnWhitespace]. now rewrite Hne.
  - destruct (String.eqb c "") eqn:Ec; cbn [negb].
    + apply String.eqb_eq in Ec. subst c. cbn [splitOnWhitespace]. now rewrite Hne.
    + cbn [append splitOnWhitespace].
      change (isAsciiWhitespace " ") with true. cbn iota. now rewrite Hne.
Qed.

Lemma heading_class_list_witness :
  "title_x" <> "" /\ noWhitespace "title_x" = true /\
  exists cn,
    classNameOf
      (rendered "title_x" (mkPropsOf (JS.str "margin-bottom--md  text--center"))
         (post (JS.str "Branded Types") (JS.str "/articles/branded-types") false)
         React.unmounted) = Some cn
    /\ classList cn =
       "title_x" :: classList (toVal (className (mkPropsOf (JS.str "margin-bottom--md  text--center")))).
Proof.
  assert (H1 : "title_x" <> "") by discriminate.
  assert (H2 : noWhitespace "title_x" = true) by reflexivity.
  split; [exact H1|]. split; [exact H2|].
  exact (heading_class_list "title_x"
           (mkPropsOf (JS.str "margin-bottom--md  text--center"))
           (post (JS.str "Branded Types") (JS.str "/articles/branded-types") false)
           React.unmounted H1 H2).
Defined.

(** ** JSX text in the two components *)

(** X7. The children of the fragment that stands in for the special-cased
    title are what the JSX text rule makes of the source lines: the line
    breaks and the indentation around the text are dropped, the space
    before and the space after the [code] element are kept. *)
Theorem fragment_children_from_source
  (styles_title : string) (props : Props) (p : JS.value) (f : React.fiber) :
  childrenOf (rendered styles_title props (post (JS.str satisfiesTitle) p true) f) =
    [React.element React.Fragment React.noProps
       (flat_map reactChildNodes fragmentSource)]
  /\ React.textContent
       (rendered styles_title props (post (JS.str satisfiesTitle) p true) f) =
     "The satisfies operator".
Proof.
  rewrite textContent_heading, rendered_satisfies. split; reflexivity.
Qed.

(** X8. Whatever class names the style sheet exports and whatever the site
    configuration holds, the hero section shows the same text: its one [h1]
    reads [Companion projects and articles for Learning TypeScript], with
    single spaces between the words across the line breaks of the source,
    its two [span]s hold [projects] and [Learning TypeScript], and the
    author line follows. *)
Theorem hero_text
  (SiteConfig : Type) (styles : Hero.Styles) (siteConfig : SiteConfig) :
  map Hero.textContent
    (Hero.getElementsByTagName "h1" (Hero.HeroSection styles siteConfig)) =
    ["Companion projects and articles for Learning TypeScript"]
  /\ map Hero.textContent
       (Hero.getElementsByTagName "span" (Hero.HeroSection styles siteConfig)) =
     ["projects"; "Learning TypeScript"]
  /\ Hero.textContent (Hero.HeroSection styles siteConfig) =
     "Companion projects and articles for Learning TypeScript"
       ++ "By Josh Goldberg".
Proof.
  repeat split; reflexivity.
Qed.

(** ** The heading and the document title together *)

(** X9. For a string title, the document title left by the mount is the
    text of the heading exactly when the title holds no backtick: a title
    with a backtick shows in the heading as it is (or, for the special-cased
    one, as the substituted markup) and in the document without its first
    backtick. *)
Theorem heading_and_document_title_agree
  (styles_title : string) (props : Props) (s : string) (p : JS.value)
  (page : bool) (d : React.document) :
  documentTitle (mount styles_title props (post (JS.str s) p page) d) =
    Some (React.textContent
            (rendered styles_title props (post (JS.str s) p page) React.unmounted))
  <-> occurrences backtick s = 0.
Proof.
  rewrite documentTitle_mount, textContent_heading. unfold shownTitle.
  cbn [JS.strict_eq].
  destruct (String.eqb s satisfiesTitle) eqn:Es.
  - apply String.eqb_eq in Es. subst s. split; intros H; discriminate H.
  - cbn [React.textContent toVal]. split.
    + intros H. injection H as H.
      destruct (occurrences backtick s) as [|n] eqn:En; [reflexivity|].
      exfalso. apply (removeFirst_changes backtick s); [lia | exact H].
    + intros H. now rewrite removeFirst_absent.
Qed.
